(** * Model of the magi-github plugin (src/src/lib.rs)

    The plugin is a thin dispatcher: [process] maps a tool name and an
    argument bundle to one GitHub REST call through [github_get] or
    [github_post].  The HTTP transport and the JSON parser of the response
    body are host/library capabilities: they are section variables, so every
    theorem below holds for every transport and every parser. *)

From Stdlib Require Import String Ascii List ZArith NArith Bool Lia.
Import ListNotations.
Open Scope string_scope.
Set Warnings "-register-all".

(** ** JSON values ([serde_json::Value], and magi_pdk's [DataType], which the
    code converts to and from it with [from_json] / [to_json]).
    Numbers are modelled as integers; floating-point numbers are not. *)
Inductive json : Type :=
| JNull : json
| JBool : bool -> json
| JNum : Z -> json
| JStr : string -> json
| JArr : list json -> json
| JObj : list (string * json) -> json.

(** Rust's [Result<T, E>]. *)
Inductive result (A E : Type) : Type :=
| Ok : A -> result A E
| Err : E -> result A E.
Arguments Ok {A E} _.
Arguments Err {A E} _.

(** [Value::get(key)]: a key lookup on an object, [None] on any other value. *)
Fixpoint assoc_get (k : string) (m : list (string * json)) : option json :=
  match m with
  | [] => None
  | (k', v) :: m' => if String.eqb k k' then Some v else assoc_get k m'
  end.

Definition json_get (k : string) (v : json) : option json :=
  match v with
  | JObj m => assoc_get k m
  | _ => None
  end.

(** [Value::as_str]. *)
Definition as_str (v : json) : option string :=
  match v with
  | JStr s => Some s
  | _ => None
  end.

(** The recurring idiom [args.get(k).and_then(|v| v.as_str()).unwrap_or(d)]. *)
Definition str_arg_or (args : json) (k d : string) : string :=
  match json_get k args with
  | Some v => match as_str v with Some s => s | None => d end
  | None => d
  end.

Definition is_empty (s : string) : bool := String.eqb s "".

(** ** Serialization ([Value::to_string], compact serde_json output) *)

Definition digit_char (d : N) : ascii := ascii_of_N (48 + d).

Fixpoint digits_aux (fuel : nat) (n : N) (acc : string) : string :=
  match fuel with
  | O => acc
  | S f =>
      let acc' := String (digit_char (N.modulo n 10)) acc in
      let q := N.div n 10 in
      if N.eqb q 0 then acc' else digits_aux f q acc'
  end.

Definition string_of_N (n : N) : string := digits_aux (S (N.size_nat n)) n "".

Definition string_of_Z (z : Z) : string :=
  match z with
  | Z0 => "0"
  | Zpos p => string_of_N (Npos p)
  | Zneg p => "-" ++ string_of_N (Npos p)
  end.

Definition hex_digit (d : N) : ascii :=
  if N.ltb d 10 then ascii_of_N (48 + d) else ascii_of_N (87 + d).

(** serde_json's string escaping: quote, backslash, the short escapes
    \b \f \n \r \t, and \u00XX for the other control characters. *)
Definition escape_char (c : ascii) : string :=
  let n := N_of_ascii c in
  if N.eqb n 34 then String "\" (String "034" EmptyString)
  else if N.eqb n 92 then String "\" (String "\" EmptyString)
  else if N.eqb n 8 then String "\" "b"
  else if N.eqb n 12 then String "\" "f"
  else if N.eqb n 10 then String "\" "n"
  else if N.eqb n 13 then String "\" "r"
  else if N.eqb n 9 then String "\" "t"
  else if N.ltb n 32 then
    String "\" ("u00" ++ String (hex_digit (N.div n 16))
                         (String (hex_digit (N.modulo n 16)) EmptyString))
  else String c EmptyString.

Fixpoint escape (s : string) : string :=
  match s with
  | EmptyString => EmptyString
  | String c s' => escape_char c ++ escape s'
  end.

Definition quote (s : string) : string :=
  String "034" (escape s ++ String "034" EmptyString).

Fixpoint sep_join (l : list string) : string :=
  match l with
  | [] => ""
  | [x] => x
  | x :: l' => x ++ "," ++ sep_join l'
  end.

Fixpoint to_string (v : json) : string :=
  match v with
  | JNull => "null"
  | JBool true => "true"
  | JBool false => "false"
  | JNum z => string_of_Z z
  | JStr s => quote s
  | JArr l => "[" ++ sep_join (map to_string l) ++ "]"
  | JObj m =>
      "{" ++ sep_join (map (fun kv => quote (fst kv) ++ ":" ++ to_string (snd kv)) m)
          ++ "}"
  end.

(** [str::trim_matches] on the double-quote character: strips every leading
    and trailing double quote. *)
Fixpoint trim_start_quotes (s : string) : string :=
  match s with
  | String c s' => if Ascii.eqb c "034"%char then trim_start_quotes s' else s
  | EmptyString => EmptyString
  end.

Fixpoint rev_string (s : string) : string :=
  match s with
  | EmptyString => EmptyString
  | String c s' => rev_string s' ++ String c EmptyString
  end.

Definition trim_matches_quote (s : string) : string :=
  rev_string (trim_start_quotes (rev_string (trim_start_quotes s))).

(** [str::replace(' ', "+")]. *)
Fixpoint replace_space (s : string) : string :=
  match s with
  | EmptyString => EmptyString
  | String c s' =>
      (if Ascii.eqb c " "%char then "+" else String c EmptyString) ++ replace_space s'
  end.

(** ** Requests and effects *)

(** An extism [HttpRequest]: [HttpRequest::new] leaves the method unset,
    which the host sends as GET; [with_method("POST")] sets it. *)
Record request : Type := mkRequest {
  req_method : string;
  req_url : string;
  req_headers : list (string * string);
  req_body : option string
}.

(** Observable effects of a plugin call: outbound HTTP calls and log lines. *)
Inductive event : Type :=
| HttpCall : request -> event
| LogInfo : string -> event.

Definition http_calls (evs : list event) : list request :=
  flat_map (fun e => match e with HttpCall r => [r] | LogInfo _ => [] end) evs.

(** extism's [Error] carries a message. *)
Definition error := string.

(** The plugin monad: a log of effects and a Rust [Result]; [bind] is the
    [?] operator (it stops at the first [Err]). *)
Definition M (A : Type) : Type := (list event * result A error)%type.

Definition ret {A} (x : A) : M A := ([], Ok x).
Definition fail {A} (e : error) : M A := ([], Err e).

Definition bind {A B} (m : M A) (k : A -> M B) : M B :=
  match m with
  | (evs, Err e) => (evs, Err e)
  | (evs, Ok x) => let (evs', r) := k x in ((evs ++ evs')%list, r)
  end.

Notation "x <- m ;; k" := (bind m (fun x => k))
  (at level 61, m at next level, right associativity).

Definition calls_of {A} (m : M A) : list request := http_calls (fst m).
Definition result_of {A} (m : M A) : result A error := snd m.

(** [json!({"error": msg})]. *)
Definition error_obj (msg : string) : json := JObj [("error", JStr msg)].

(** ** Plugin exports and tools, over any transport and any JSON parser *)
Section Plugin.

(** [http::request(&req, body)]: the host transport, answering the response
    body or a transport error. *)
Variable http_request : request -> result string error.

(** [serde_json::from_slice]: the JSON parser of a response body, answering
    the parsed value or the parser's error message. *)
Variable from_slice : string -> result json string.

Definition http_send (req : request) : M string := ([HttpCall req], http_request req).

Definition log_info (msg : string) : M unit := ([LogInfo msg], Ok tt).

Definition parse_body (body : string) : M json :=
  match from_slice body with
  | Ok v => ret v
  | Err e => fail ("JSON parse error: " ++ e)
  end.

Definition common_headers (token : string) : list (string * string) :=
  [("Authorization", "Bearer " ++ token);
   ("Accept", "application/vnd.github+json");
   ("User-Agent", "magi-github-plugin/0.1");
   ("X-GitHub-Api-Version", "2022-11-28")].

(** URL construction of [github_get]. *)
Definition github_get_url (path : string) : string :=
  if String.prefix "https://" path then path else "https://api.github.com" ++ path.

(** URL construction of [github_post]. *)
Definition github_post_url (path : string) : string :=
  "https://api.github.com" ++ path.

Definition github_get (token path : string) : M json :=
  let req := mkRequest "GET" (github_get_url path) (common_headers token) None in
  resp <- http_send req ;;
  parse_body resp.

(** The body string is sent with the request ([http::request(&req,
    Some(body_str))]); [serde_json::to_string] of a [Value] does not fail. *)
Definition github_post (token path : string) (body : json) : M json :=
  let url := github_post_url path in
  let body_str := to_string body in
  let req := mkRequest "POST" url
               (common_headers token ++ [("Content-Type", "application/json")])
               (Some body_str) in
  resp <- http_send req ;;
  parse_body resp.

(** *** Tool implementations *)

Definition list_repos (token : string) (args : json) : M json :=
  let owner := str_arg_or args "owner" "" in
  let path := if is_empty owner then "/user/repos?per_page=30&sort=updated"
              else "/users/" ++ owner ++ "/repos?per_page=30&sort=updated" in
  data <- github_get token path ;;
  ret data.

Definition get_repo (token : string) (args : json) : M json :=
  let owner := str_arg_or args "owner" "" in
  let repo := str_arg_or args "repo" "" in
  if is_empty owner || is_empty repo then ret (error_obj "owner and repo are required")
  else
    data <- github_get token ("/repos/" ++ owner ++ "/" ++ repo) ;;
    ret data.

Definition list_issues (token : string) (args : json) : M json :=
  let owner := str_arg_or args "owner" "" in
  let repo := str_arg_or args "repo" "" in
  let state := str_arg_or args "state" "open" in
  if is_empty owner || is_empty repo then ret (error_obj "owner and repo are required")
  else
    data <- github_get token ("/repos/" ++ owner ++ "/" ++ repo ++ "/issues?state="
                               ++ state ++ "&per_page=30") ;;
    ret data.

(** [json!({"title": title, "body": body_text})]: serde_json's default map
    keeps its keys in sorted order. *)
Definition create_issue (token : string) (args : json) : M json :=
  let owner := str_arg_or args "owner" "" in
  let repo := str_arg_or args "repo" "" in
  let title := str_arg_or args "title" "" in
  let body_text := str_arg_or args "body" "" in
  if is_empty owner || is_empty repo || is_empty title then
    ret (error_obj "owner, repo, and title are required")
  else
    let body := JObj [("body", JStr body_text); ("title", JStr title)] in
    data <- github_post token ("/repos/" ++ owner ++ "/" ++ repo ++ "/issues") body ;;
    ret data.

Definition list_prs (token : string) (args : json) : M json :=
  let owner := str_arg_or args "owner" "" in
  let repo := str_arg_or args "repo" "" in
  let state := str_arg_or args "state" "open" in
  if is_empty owner || is_empty repo then ret (error_obj "owner and repo are required")
  else
    data <- github_get token ("/repos/" ++ owner ++ "/" ++ repo ++ "/pulls?state="
                               ++ state ++ "&per_page=30") ;;
    ret data.

(** [args.get("number").map(|v| v.to_json().to_string()).unwrap_or_default()]. *)
Definition number_arg (args : json) : string :=
  match json_get "number" args with
  | Some v => to_string v
  | None => ""
  end.

Definition get_pr (token : string) (args : json) : M json :=
  let owner := str_arg_or args "owner" "" in
  let repo := str_arg_or args "repo" "" in
  let number := number_arg args in
  if is_empty owner || is_empty repo || is_empty number then
    ret (error_obj "owner, repo, and number are required")
  else
    let num := trim_matches_quote number in
    data <- github_get token ("/repos/" ++ owner ++ "/" ++ repo ++ "/pulls/" ++ num) ;;
    ret data.

Definition get_file (token : string) (args : json) : M json :=
  let owner := str_arg_or args "owner" "" in
  let repo := str_arg_or args "repo" "" in
  let path := str_arg_or args "path" "" in
  let branch := str_arg_or args "branch" "main" in
  if is_empty owner || is_empty repo || is_empty path then
    ret (error_obj "owner, repo, and path are required")
  else
    data <- github_get token ("/repos/" ++ owner ++ "/" ++ repo ++ "/contents/" ++ path
                               ++ "?ref=" ++ branch) ;;
    ret data.

Definition search_code (token : string) (args : json) : M json :=
  let query := str_arg_or args "query" "" in
  if is_empty query then ret (error_obj "query is required")
  else
    let encoded := replace_space query in
    data <- github_get token ("/search/code?q=" ++ encoded ++ "&per_page=20") ;;
    ret data.

(** *** The request router ([match tool.as_str()] in [process]) *)

Inductive tool : Type :=
| ListRepos | GetRepo | ListIssues | CreateIssue | ListPrs | GetPr | GetFile | SearchCode.

(** The string cases of the router, in the source's order. *)
Definition route (name : string) : option tool :=
  if String.eqb name "list_repos" then Some ListRepos
  else if String.eqb name "get_repo" then Some GetRepo
  else if String.eqb name "list_issues" then Some ListIssues
  else if String.eqb name "create_issue" then Some CreateIssue
  else if String.eqb name "list_prs" then Some ListPrs
  else if String.eqb name "get_pr" then Some GetPr
  else if String.eqb name "get_file" then Some GetFile
  else if String.eqb name "search_code" then Some SearchCode
  else None.

Definition run_tool (t : tool) : string -> json -> M json :=
  match t with
  | ListRepos => list_repos
  | GetRepo => get_repo
  | ListIssues => list_issues
  | CreateIssue => create_issue
  | ListPrs => list_prs
  | GetPr => get_pr
  | GetFile => get_file
  | SearchCode => search_code
  end.

(** [process].  [config] is the value of [magi_pdk::get_config()], or its
    default when the host store cannot be read; the host re-reads it on
    every call. *)
Definition process (config input : json) : M json :=
  let tool := str_arg_or input "tool" "" in
  let args := match json_get "args" input with Some v => v | None => JNull end in
  let token := str_arg_or config "github_token" "" in
  match route tool with
  | Some t => run_tool t token args
  | None => ret (error_obj ("unknown tool: " ++ tool))
  end.

(** [init]. *)
Definition init (input : json) : M json :=
  let config := match json_get "config" input with Some v => v | None => JNull end in
  match match json_get "github_token" config with Some t => as_str t | None => None end with
  | None => ret (error_obj "github_token is required")
  | Some _ =>
      _ <- log_info "GitHub plugin initialized" ;;
      ret (JObj [("success", JBool true)])
  end.

End Plugin.

(** ** The descriptor ([describe]) *)

Definition tool_entry (name description : string) : json :=
  JObj [("name", JStr name); ("description", JStr description)].

Definition describe_json : json :=
  JObj [("name", JStr "github");
        ("version", JStr "0.1.0");
        ("description", JStr "GitHub API integration for repos, issues, PRs, and code search");
        ("label", JStr "mcp");
        ("tools", JArr [
           tool_entry "list_repos" "List repositories for a user or org";
           tool_entry "get_repo" "Get repository details";
           tool_entry "list_issues" "List issues for a repository";
           tool_entry "create_issue" "Create a new issue";
           tool_entry "list_prs" "List pull requests for a repository";
           tool_entry "get_pr" "Get pull request details";
           tool_entry "get_file" "Get file contents from a repository";
           tool_entry "search_code" "Search code across repositories"])].

Definition describe : M json := ret describe_json.

(** The tool names a descriptor lists under ["tools"]. *)
Definition descriptor_tool_names (d : json) : list string :=
  match json_get "tools" d with
  | Some (JArr l) =>
      flat_map (fun t => match json_get "name" t with Some (JStr n) => [n] | _ => [] end) l
  | _ => []
  end.

(** ** Auxiliary definitions for the statements *)

(** The request [github_get] sends for [path]. *)
Definition get_request (token path : string) : request :=
  mkRequest "GET" (github_get_url path) (common_headers token) None.

(** The request [github_post] sends for [path] and [body]. *)
Definition post_request (token path : string) (body : json) : request :=
  mkRequest "POST" (github_post_url path)
    (common_headers token ++ [("Content-Type", "application/json")])
    (Some (to_string body)).

(** What a helper hands back once its one request is answered: the parsed
    body, the transport error, or the parse error. *)
Definition answer (http_request : request -> result string error)
    (from_slice : string -> result json string) (req : request) : result json error :=
  match http_request req with
  | Ok body =>
      match from_slice body with
      | Ok v => Ok v
      | Err e => Err ("JSON parse error: " ++ e)
      end
  | Err e => Err e
  end.

(** Method and URL of each outbound call of a run. *)
Definition targets {A} (m : M A) : list (string * string) :=
  map (fun r => (req_method r, req_url r)) (calls_of m).

(** The token [process] reads from the configuration. *)
Definition config_token (config : json) : string := str_arg_or config "github_token" "".

(** The fields each tool's guard tests, and the message it answers when one
    of them is missing (read off the source's guards). *)
Definition required_fields (t : tool) : list string :=
  match t with
  | ListRepos => []
  | GetRepo | ListIssues | ListPrs => ["owner"; "repo"]
  | CreateIssue => ["owner"; "repo"; "title"]
  | GetPr => ["owner"; "repo"; "number"]
  | GetFile => ["owner"; "repo"; "path"]
  | SearchCode => ["query"]
  end.

Definition required_message (t : tool) : string :=
  match t with
  | ListRepos => ""
  | GetRepo | ListIssues | ListPrs => "owner and repo are required"
  | CreateIssue => "owner, repo, and title are required"
  | GetPr => "owner, repo, and number are required"
  | GetFile => "owner, repo, and path are required"
  | SearchCode => "query is required"
  end.

(** The error message of the spec's validation policy: the missing field
    names, comma-joined, followed by [are required]. *)
Fixpoint comma_join (l : list string) : string :=
  match l with
  | [] => ""
  | [x] => x
  | x :: l' => x ++ ", " ++ comma_join l'
  end.

Definition spec_missing_message (missing : list string) : string :=
  comma_join missing ++ " are required".

(** The URL rule the spec states for both helpers. *)
Definition spec_helper_url (path : string) : string :=
  if String.prefix "https://" path then path else "https://api.github.com" ++ path.

(** A tool invocation input. *)
Definition tool_input (name : string) (args : json) : json :=
  JObj [("tool", JStr name); ("args", args)].

(** Characters serde_json writes unescaped and that are not the double
    quote: printable ASCII apart from quote and backslash, and bytes above. *)
Definition plain_char (c : ascii) : bool :=
  let n := N_of_ascii c in
  N.leb 32 n && negb (N.eqb n 34) && negb (N.eqb n 92).

Fixpoint all_chars (p : ascii -> bool) (s : string) : bool :=
  match s with
  | EmptyString => true
  | String c s' => p c && all_chars p s'
  end.

(** [config_schema]. *)
Definition config_schema_json : json :=
  JObj [("type", JStr "object");
        ("properties", JObj [
           ("github_token", JObj [("type", JStr "string");
                                  ("description", JStr "GitHub personal access token")]);
           ("default_owner", JObj [("type", JStr "string");
                                   ("description", JStr "Default repository owner (user or org)")])]);
        ("required", JArr [JStr "github_token"])].

Definition config_schema : M json := ret config_schema_json.

(** The [required] and [type] keywords of a JSON schema, as a checker:
    every required field is present and of its declared type. *)
Definition schema_required (schema : json) : list string :=
  match json_get "required" schema with
  | Some (JArr l) => flat_map (fun v => match v with JStr k => [k] | _ => [] end) l
  | _ => []
  end.

Definition declared_type (schema : json) (k : string) : string :=
  match json_get "properties" schema with
  | Some props => match json_get k props with
                  | Some d => str_arg_or d "type" ""
                  | None => ""
                  end
  | None => ""
  end.

Definition type_matches (ty : string) (v : json) : bool :=
  match v with
  | JNull => String.eqb ty "null"
  | JBool _ => String.eqb ty "boolean"
  | JNum _ => String.eqb ty "integer" || String.eqb ty "number"
  | JStr _ => String.eqb ty "string"
  | JArr _ => String.eqb ty "array"
  | JObj _ => String.eqb ty "object"
  end.

Definition satisfies_required (schema config : json) : bool :=
  forallb (fun k => match json_get k config with
                    | Some v => type_matches (declared_type schema k) v
                    | None => false
                    end)
          (schema_required schema).

(** The [config] field [init] reads. *)
Definition init_config (input : json) : json :=
  match json_get "config" input with Some v => v | None => JNull end.

(** ** Helper lemmas *)

Lemma bind_ret_r {A} (m : M A) : bind m ret = m.
Proof.
  destruct m as [evs [x|e]]; cbn; [rewrite app_nil_r|]; reflexivity.
Qed.

Lemma github_get_run http_request from_slice token path :
  github_get http_request from_slice token path =
  ([HttpCall (get_request token path)],
   answer http_request from_slice (get_request token path)).
Proof.
  unfold github_get, answer, get_request, http_send, parse_body, bind; cbn.
  destruct (http_request _) as [body|e]; [|reflexivity].
  destruct (from_slice body); reflexivity.
Qed.

Lemma github_post_run http_request from_slice token path body :
  github_post http_request from_slice token path body =
  ([HttpCall (post_request token path body)],
   answer http_request from_slice (post_request token path body)).
Proof.
  unfold github_post, answer, post_request, http_send, parse_body, bind; cbn.
  destruct (http_request _) as [b|e]; [|reflexivity].
  destruct (from_slice b); reflexivity.
Qed.

Lemma is_empty_true s : is_empty s = true <-> s = "".
Proof. unfold is_empty. apply String.eqb_eq. Qed.

Lemma is_empty_false s : s <> "" -> is_empty s = false.
Proof. intro H. unfold is_empty. apply String.eqb_neq. exact H. Qed.

(** Every tool either answers an error object without any effect or is
    exactly one call of a helper. *)
Lemma run_tool_shape http_request from_slice t token args :
  (exists msg, run_tool http_request from_slice t token args = ret (error_obj msg))
  \/ (exists path, run_tool http_request from_slice t token args
                   = github_get http_request from_slice token path)
  \/ (exists path body, run_tool http_request from_slice t token args
                        = github_post http_request from_slice token path body).
Proof.
  destruct t; cbn [run_tool];
  unfold list_repos, get_repo, list_issues, create_issue, list_prs, get_pr,
    get_file, search_code; cbv zeta;
  repeat match goal with
         | |- context [if ?c then _ else _] => destruct c
         end;
  rewrite ?bind_ret_r; eauto 6.
Qed.

Lemma process_shape http_request from_slice config input :
  (exists msg, process http_request from_slice config input = ret (error_obj msg))
  \/ (exists path, process http_request from_slice config input
                   = github_get http_request from_slice (config_token config) path)
  \/ (exists path body, process http_request from_slice config input
                        = github_post http_request from_slice (config_token config) path body).
Proof.
  unfold process, config_token; cbv zeta.
  destruct (route _) as [t|]; [apply run_tool_shape|eauto].
Qed.

Lemma process_route http_request from_slice config input name args t :
  json_get "tool" input = Some (JStr name) ->
  json_get "args" input = Some args ->
  route name = Some t ->
  process http_request from_slice config input
    = run_tool http_request from_slice t (config_token config) args.
Proof.
  intros Htool Hargs Hroute.
  unfold process, str_arg_or at 1. rewrite Htool, Hargs. cbn [as_str].
  rewrite Hroute. reflexivity.
Qed.

(** ** Claims *)

(** Transport and parser used at concrete inputs. *)
Definition refusing_transport : request -> result string error :=
  fun _ => Err "connection refused".

Definition echo_transport : request -> result string error :=
  fun r => Ok (req_url r).

Definition rejecting_parser : string -> result json string :=
  fun _ => Err "expected value at line 1 column 1".

Definition null_parser : string -> result json string := fun _ => Ok JNull.

(** C1 (counterexample): a transport failure, and a response body that is
    not JSON, reach the host as an [Err] of [process], not as a value. *)
Lemma process_error_escapes :
  result_of (process refusing_transport null_parser JNull
               (tool_input "list_repos" (JObj [])))
    = Err "connection refused"
  /\ result_of (process echo_transport rejecting_parser JNull
                  (tool_input "list_repos" (JObj [])))
    = Err "JSON parse error: expected value at line 1 column 1".
Proof. split; reflexivity. Qed.

(** C1 (amended): every run of [process] either answers an [{error: ...}]
    object with no effect at all, or issues exactly one request and hands
    back that request's answer: the parsed response body unchanged, or the
    transport error, or the JSON-parse error, both as an [Err] of the
    plugin call. *)
Theorem process_outcome http_request from_slice config input :
  let out := process http_request from_slice config input in
  (fst out = [] /\ exists msg, snd out = Ok (error_obj msg))
  \/ (exists req, fst out = [HttpCall req]
                  /\ snd out = answer http_request from_slice req).
Proof.
  cbv zeta.
  destruct (process_shape http_request from_slice config input)
    as [[msg ->]|[[path ->]|[path [body ->]]]].
  - left. split; [reflexivity|exists msg; reflexivity].
  - right. rewrite github_get_run. eexists. split; reflexivity.
  - right. rewrite github_post_run. eexists. split; reflexivity.
Qed.

(** C2 (counterexample): with [owner] given and [repo] omitted, [get_repo]
    answers a message naming both fields, not only the missing one. *)
Lemma get_repo_message_not_missing_fields :
  process refusing_transport null_parser JNull
    (tool_input "get_repo" (JObj [("owner", JStr "o")]))
    = ([], Ok (error_obj "owner and repo are required"))
  /\ result_of (process refusing_transport null_parser JNull
                  (tool_input "get_repo" (JObj [("owner", JStr "o")])))
     <> Ok (error_obj (spec_missing_message ["repo"])).
Proof. split; [reflexivity|cbv; congruence]. Qed.

(** C2 (amended): for every tool, when one of its required fields is
    omitted, or (for fields other than [get_pr]'s [number]) is not a
    non-empty JSON string, [process] answers the tool's fixed error object,
    which lists all of the tool's required fields, and has no effect. *)
Theorem process_missing_required http_request from_slice config input name args t f
  (Htool : json_get "tool" input = Some (JStr name))
  (Hargs : json_get "args" input = Some args)
  (Hroute : route name = Some t)
  (Hf : In f (required_fields t))
  (Hmissing : if String.eqb f "number" then json_get "number" args = None
              else str_arg_or args f "" = "") :
  process http_request from_slice config input
    = ([], Ok (error_obj (required_message t))).
Proof.
  unfold process, str_arg_or at 1. rewrite Htool, Hargs. cbn [as_str].
  rewrite Hroute.
  destruct t; cbn [required_fields In] in Hf;
  repeat destruct Hf as [<-|Hf]; try contradiction;
  cbn [String.eqb Ascii.eqb Bool.eqb andb] in Hmissing;
  cbn [run_tool];
  unfold list_repos, get_repo, list_issues, create_issue, list_prs, get_pr,
    get_file, search_code; cbv zeta;
  try (unfold number_arg; rewrite Hmissing);
  try rewrite Hmissing; cbn [is_empty String.eqb];
  rewrite ?orb_true_r, ?orb_true_l; reflexivity.
Qed.

Lemma process_missing_required_witness :
  process refusing_transport null_parser JNull
    (tool_input "create_issue" (JObj [("owner", JStr "o"); ("repo", JStr "r")]))
    = ([], Ok (error_obj "owner, repo, and title are required")).
Proof.
  apply (process_missing_required refusing_transport null_parser JNull
           (tool_input "create_issue" (JObj [("owner", JStr "o"); ("repo", JStr "r")]))
           "create_issue" (JObj [("owner", JStr "o"); ("repo", JStr "r")])
           CreateIssue "title"); vm_compute; auto.
Defined.

(** C3: [get_pr] with [number] given as the empty string, or as null, is
    not rejected: the serialized number is tested for emptiness before its
    quotes are trimmed, so one GET request is sent, to [.../pulls/] and to
    [.../pulls/null] respectively. *)
Theorem get_pr_empty_or_null_number_sends_request http_request from_slice config :
  targets (process http_request from_slice config
             (tool_input "get_pr" (JObj [("owner", JStr "o"); ("repo", JStr "r");
                                         ("number", JStr "")])))
    = [("GET", "https://api.github.com/repos/o/r/pulls/")]
  /\ targets (process http_request from_slice config
                (tool_input "get_pr" (JObj [("owner", JStr "o"); ("repo", JStr "r");
                                            ("number", JNull)])))
    = [("GET", "https://api.github.com/repos/o/r/pulls/null")].
Proof.
  unfold targets, calls_of, process; cbn -[github_get].
  rewrite !bind_ret_r, !github_get_run. split; reflexivity.
Qed.

(** C4 (counterexample): the POST helper prefixes the API host even to a
    path that already starts with [https://]. *)
Lemma github_post_url_no_passthrough :
  github_post_url "https://api.github.com/repos/o/r/issues"
    = "https://api.github.comhttps://api.github.com/repos/o/r/issues"
  /\ github_post_url "https://api.github.com/repos/o/r/issues"
     <> spec_helper_url "https://api.github.com/repos/o/r/issues".
Proof. split; [reflexivity|vm_compute; congruence]. Qed.

(** C4 (amended): the GET helper requests [https://api.github.com] followed
    by the path, unless the path starts with [https://], in which case it
    requests the path unchanged; the POST helper always requests
    [https://api.github.com] followed by the path. *)
Theorem helper_urls http_request from_slice token path body :
  map req_url (calls_of (github_get http_request from_slice token path))
    = [if String.prefix "https://" path then path else "https://api.github.com" ++ path]
  /\ map req_url (calls_of (github_post http_request from_slice token path body))
    = ["https://api.github.com" ++ path].
Proof.
  unfold calls_of. rewrite github_get_run, github_post_run. split; reflexivity.
Qed.

(** C5: [get_pr] with owner [o] and repo [r] sends the same request, to
    [/repos/o/r/pulls/42], whether [number] is the integer 42 or the string
    ["42"]. *)
Theorem get_pr_number_int_or_string http_request from_slice config :
  let run n := process http_request from_slice config
                 (tool_input "get_pr" (JObj [("owner", JStr "o"); ("repo", JStr "r");
                                             ("number", n)])) in
  calls_of (run (JNum 42)) = calls_of (run (JStr "42"))
  /\ targets (run (JNum 42)) = [("GET", "https://api.github.com/repos/o/r/pulls/42")].
Proof.
  cbv zeta. unfold targets, calls_of, process; cbn -[github_get].
  rewrite !bind_ret_r, !github_get_run. split; reflexivity.
Qed.

(** C6: the tool names listed by [describe] are exactly the names the
    router of [process] has a case for. *)
Theorem describe_matches_router name :
  In name (descriptor_tool_names
             (match result_of describe with Ok d => d | Err _ => JNull end))
  <-> exists t, route name = Some t.
Proof.
  cbn. split.
  - intros H. repeat destruct H as [<-|H]; try contradiction;
    eexists; reflexivity.
  - intros [t Ht]. unfold route in Ht.
    repeat match type of Ht with
           | context [String.eqb name ?s] =>
               destruct (String.eqb_spec name s) as [->|_]; [tauto|]
           end.
    discriminate.
Qed.

(** C7: [list_repos] with [owner] omitted or empty sends
    [GET /user/repos?per_page=30&sort=updated]; with a non-empty owner such
    as [acme] it sends [GET /users/acme/repos?per_page=30&sort=updated]. *)
Theorem list_repos_target http_request from_slice config input args
  (Htool : json_get "tool" input = Some (JStr "list_repos"))
  (Hargs : json_get "args" input = Some args) :
  ((json_get "owner" args = None \/ json_get "owner" args = Some (JStr "")) ->
   targets (process http_request from_slice config input)
     = [("GET", "https://api.github.com/user/repos?per_page=30&sort=updated")])
  /\ (forall owner, json_get "owner" args = Some (JStr owner) -> owner <> "" ->
      targets (process http_request from_slice config input)
        = [("GET", "https://api.github.com/users/" ++ owner
                     ++ "/repos?per_page=30&sort=updated")]).
Proof.
  rewrite (process_route _ _ _ _ _ _ ListRepos Htool Hargs eq_refl).
  unfold targets, calls_of; cbn [run_tool].
  unfold list_repos, str_arg_or; cbv zeta. rewrite bind_ret_r, github_get_run.
  split.
  - intros [H|H]; rewrite H; reflexivity.
  - intros owner H Hne. rewrite H; cbn [as_str].
    rewrite (is_empty_false owner Hne). reflexivity.
Qed.

Lemma list_repos_target_witness :
  targets (process echo_transport null_parser JNull
             (tool_input "list_repos" (JObj [("owner", JStr "acme")])))
    = [("GET", "https://api.github.com/users/acme/repos?per_page=30&sort=updated")].
Proof.
  apply (proj2 (list_repos_target echo_transport null_parser JNull
                  (tool_input "list_repos" (JObj [("owner", JStr "acme")]))
                  (JObj [("owner", JStr "acme")]) eq_refl eq_refl) "acme" eq_refl).
  discriminate.
Defined.

(** C8: for [list_issues] and [list_prs] with a non-empty owner and repo,
    an omitted [state] puts [state=open] in the query string, and a string
    [state] is put there unchanged. *)
Theorem list_state_query http_request from_slice config input args name kind owner repo
  (Hname : In (name, kind) [("list_issues", "issues"); ("list_prs", "pulls")])
  (Htool : json_get "tool" input = Some (JStr name))
  (Hargs : json_get "args" input = Some args)
  (Howner : json_get "owner" args = Some (JStr owner)) (Howner' : owner <> "")
  (Hrepo : json_get "repo" args = Some (JStr repo)) (Hrepo' : repo <> "") :
  (json_get "state" args = None ->
   targets (process http_request from_slice config input)
     = [("GET", "https://api.github.com/repos/" ++ owner ++ "/" ++ repo ++ "/" ++ kind
                  ++ "?state=open&per_page=30")])
  /\ (forall state, json_get "state" args = Some (JStr state) ->
      targets (process http_request from_slice config input)
        = [("GET", "https://api.github.com/repos/" ++ owner ++ "/" ++ repo ++ "/" ++ kind
                     ++ "?state=" ++ state ++ "&per_page=30")]).
Proof.
  destruct Hname as [E|[E|[]]]; injection E as <- <-;
  [rewrite (process_route _ _ _ _ _ _ ListIssues Htool Hargs eq_refl)
  |rewrite (process_route _ _ _ _ _ _ ListPrs Htool Hargs eq_refl)];
  unfold targets, calls_of; cbn [run_tool];
  unfold list_issues, list_prs, str_arg_or; cbv zeta;
  rewrite Howner, Hrepo; cbn [as_str];
  rewrite (is_empty_false owner Howner'), (is_empty_false repo Hrepo'); cbn [orb];
  rewrite bind_ret_r; split;
  [intros H | intros state H | intros H | intros state H]; rewrite H;
  rewrite github_get_run; reflexivity.
Qed.

Lemma list_state_query_witness :
  targets (process echo_transport null_parser JNull
             (tool_input "list_prs" (JObj [("owner", JStr "o"); ("repo", JStr "r");
                                           ("state", JStr "closed")])))
    = [("GET", "https://api.github.com/repos/o/r/pulls?state=closed&per_page=30")].
Proof.
  apply (proj2 (list_state_query echo_transport null_parser JNull
    (tool_input "list_prs" (JObj [("owner", JStr "o"); ("repo", JStr "r");
                                  ("state", JStr "closed")]))
    (JObj [("owner", JStr "o"); ("repo", JStr "r"); ("state", JStr "closed")])
    "list_prs" "pulls" "o" "r"
    ltac:(simpl; tauto) eq_refl eq_refl eq_refl ltac:(discriminate)
    eq_refl ltac:(discriminate)) "closed" eq_refl).
Defined.

(** C9: [init] answers [{error: "github_token is required"}] when the
    configuration has no string [github_token], and [{success: true}]
    otherwise; it never fails and sends no request. *)
Theorem init_outcome input :
  let config := match json_get "config" input with Some v => v | None => JNull end in
  calls_of (init input) = []
  /\ (match json_get "github_token" config with Some (JStr _) => True | _ => False end ->
      result_of (init input) = Ok (JObj [("success", JBool true)]))
  /\ (match json_get "github_token" config with Some (JStr _) => False | _ => True end ->
      result_of (init input) = Ok (error_obj "github_token is required")).
Proof.
  cbv zeta. unfold init, calls_of, result_of.
  destruct (json_get "github_token" _) as [[]|]; cbn; tauto.
Qed.

(** C10: when the [tool] field of the input is absent or not a string,
    [process] answers [{error: "unknown tool: "}] with no effect. *)
Theorem process_tool_not_string http_request from_slice config input
  (Htool : match json_get "tool" input with Some (JStr _) => False | _ => True end) :
  process http_request from_slice config input = ([], Ok (error_obj "unknown tool: ")).
Proof.
  unfold process, str_arg_or.
  destruct (json_get "tool" input) as [[]|]; try contradiction; reflexivity.
Qed.

Lemma process_tool_not_string_witness :
  process refusing_transport null_parser JNull (JObj [("tool", JNum 3)])
    = ([], Ok (error_obj "unknown tool: ")).
Proof.
  apply (process_tool_not_string refusing_transport null_parser JNull
           (JObj [("tool", JNum 3)])); simpl; exact I.
Defined.

(** ** Further properties of the code *)

(** *** String helpers *)

Open Scope N_scope.

Lemma string_app_assoc (a b c : string) : (a ++ b) ++ c = a ++ (b ++ c).
Proof. induction a; cbn; [reflexivity|now rewrite IHa]. Qed.

Lemma string_app_nil_r (a : string) : a ++ "" = a.
Proof. induction a; cbn; [reflexivity|now rewrite IHa]. Qed.

Lemma rev_string_app (a b : string) : rev_string (a ++ b) = rev_string b ++ rev_string a.
Proof.
  induction a; cbn.
  - now rewrite string_app_nil_r.
  - rewrite IHa. apply string_app_assoc.
Qed.

Lemma rev_string_involutive (s : string) : rev_string (rev_string s) = s.
Proof. induction s; cbn; [reflexivity|]. rewrite rev_string_app, IHs. reflexivity. Qed.

Lemma all_chars_app p (a b : string) :
  all_chars p (a ++ b) = all_chars p a && all_chars p b.
Proof. induction a; cbn; [reflexivity|]. now rewrite IHa, andb_assoc. Qed.

Lemma all_chars_rev p (s : string) : all_chars p (rev_string s) = all_chars p s.
Proof.
  induction s; cbn; [reflexivity|].
  rewrite all_chars_app, IHs; cbn. now rewrite andb_true_r, andb_comm.
Qed.

Lemma plain_char_spec c :
  plain_char c = true ->
  32 <= N_of_ascii c /\ N_of_ascii c <> 34 /\ N_of_ascii c <> 92.
Proof.
  unfold plain_char. intros H.
  apply andb_prop in H as [H H3]. apply andb_prop in H as [H1 H2].
  apply negb_true_iff, N.eqb_neq in H2, H3. apply N.leb_le in H1. auto.
Qed.

Lemma escape_char_plain c : plain_char c = true -> escape_char c = String c "".
Proof.
  intros H. apply plain_char_spec in H as (H1 & H2 & H3).
  unfold escape_char. set (n := N_of_ascii c) in *.
  repeat match goal with
         | |- context [N.eqb n ?k] =>
             replace (N.eqb n k) with false by (symmetry; apply N.eqb_neq; lia)
         end.
  replace (N.ltb n 32) with false by (symmetry; apply N.ltb_ge; lia).
  reflexivity.
Qed.

Lemma escape_plain s : all_chars plain_char s = true -> escape s = s.
Proof.
  induction s as [|c s IH]; cbn; [reflexivity|].
  intros H. apply andb_prop in H as [Hc Hs].
  rewrite escape_char_plain, IH by assumption. reflexivity.
Qed.

Lemma plain_not_quote c : plain_char c = true -> Ascii.eqb c "034"%char = false.
Proof.
  intros H. apply plain_char_spec in H as (_ & H & _).
  destruct (Ascii.eqb_spec c "034"%char) as [->|]; [cbn in H; lia|reflexivity].
Qed.

Lemma trim_start_plain s : all_chars plain_char s = true -> trim_start_quotes s = s.
Proof.
  destruct s as [|c s]; cbn; [reflexivity|].
  intros H. apply andb_prop in H as [Hc _]. now rewrite plain_not_quote.
Qed.


Lemma trim_matches_quote_quoted s :
  all_chars plain_char s = true -> trim_matches_quote (quote s) = s.
Proof.
  intros H. unfold quote, trim_matches_quote. rewrite escape_plain by assumption.
  cbn [trim_start_quotes Ascii.eqb Bool.eqb andb].
  destruct s as [|c s'] eqn:Es; [reflexivity|].
  rewrite <- Es in *.
  assert (Hne : trim_start_quotes (s ++ String "034" "") = s ++ String "034" "").
  { subst s. cbn. apply andb_prop in H as [Hc _]. now rewrite plain_not_quote. }
  rewrite Hne, rev_string_app. cbn [rev_string append trim_start_quotes Ascii.eqb Bool.eqb andb].
  rewrite trim_start_plain by (now rewrite all_chars_rev).
  apply rev_string_involutive.
Qed.




Close Scope N_scope.



(** Entering the tool the router selects. *)
Ltac enter_tool T Htool Hargs :=
  rewrite (process_route _ _ _ _ _ _ T Htool Hargs eq_refl);
  unfold targets, calls_of; cbn [run_tool].

(** *** Request targets of the tools *)



(** [get_pr] with a JSON string [number] made of plain characters (no
    quote, backslash or control character) requests [/pulls/] followed by
    that string unchanged: the quotes of its serialization are trimmed. *)
Theorem get_pr_string_number http_request from_slice config input args owner repo num
  (Htool : json_get "tool" input = Some (JStr "get_pr"))
  (Hargs : json_get "args" input = Some args)
  (Howner : json_get "owner" args = Some (JStr owner)) (Howner' : owner <> "")
  (Hrepo : json_get "repo" args = Some (JStr repo)) (Hrepo' : repo <> "")
  (Hnum : json_get "number" args = Some (JStr num))
  (Hplain : all_chars plain_char num = true) :
  targets (process http_request from_slice config input)
    = [("GET", "https://api.github.com/repos/" ++ owner ++ "/" ++ repo ++ "/pulls/" ++ num)].
Proof.
  enter_tool GetPr Htool Hargs.
  unfold get_pr, str_arg_or, number_arg; cbv zeta.
  rewrite Howner, Hrepo, Hnum; cbn [as_str to_string].
  rewrite (is_empty_false owner Howner'), (is_empty_false repo Hrepo'); cbn [orb].
  replace (is_empty (quote num)) with false by reflexivity; cbn [orb].
  rewrite (trim_matches_quote_quoted _ Hplain).
  rewrite bind_ret_r, github_get_run. reflexivity.
Qed.

Lemma get_pr_string_number_witness :
  targets (process echo_transport null_parser JNull
             (tool_input "get_pr" (JObj [("owner", JStr "o"); ("repo", JStr "r");
                                         ("number", JStr "17")])))
    = [("GET", "https://api.github.com/repos/o/r/pulls/17")].
Proof.
  apply (get_pr_string_number echo_transport null_parser JNull _
           (JObj [("owner", JStr "o"); ("repo", JStr "r"); ("number", JStr "17")])
           "o" "r" "17"); (reflexivity || discriminate).
Defined.

(** [get_repo] with a non-empty owner and repo requests [/repos/owner/repo]. *)
Theorem get_repo_target http_request from_slice config input args owner repo
  (Htool : json_get "tool" input = Some (JStr "get_repo"))
  (Hargs : json_get "args" input = Some args)
  (Howner : json_get "owner" args = Some (JStr owner)) (Howner' : owner <> "")
  (Hrepo : json_get "repo" args = Some (JStr repo)) (Hrepo' : repo <> "") :
  targets (process http_request from_slice config input)
    = [("GET", "https://api.github.com/repos/" ++ owner ++ "/" ++ repo)].
Proof.
  enter_tool GetRepo Htool Hargs.
  unfold get_repo, str_arg_or; cbv zeta.
  rewrite Howner, Hrepo; cbn [as_str].
  rewrite (is_empty_false owner Howner'), (is_empty_false repo Hrepo'); cbn [orb].
  rewrite bind_ret_r, github_get_run. reflexivity.
Qed.

Lemma get_repo_target_witness :
  targets (process echo_transport null_parser JNull
             (tool_input "get_repo" (JObj [("owner", JStr "o"); ("repo", JStr "r")])))
    = [("GET", "https://api.github.com/repos/o/r")].
Proof.
  apply (get_repo_target echo_transport null_parser JNull _
           (JObj [("owner", JStr "o"); ("repo", JStr "r")]) "o" "r");
  (reflexivity || discriminate).
Defined.

(** [get_file] with a non-empty owner, repo and path requests
    [/repos/owner/repo/contents/path?ref=main] when [branch] is omitted, and
    [?ref=] followed by the given string otherwise. *)
Theorem get_file_target http_request from_slice config input args owner repo path
  (Htool : json_get "tool" input = Some (JStr "get_file"))
  (Hargs : json_get "args" input = Some args)
  (Howner : json_get "owner" args = Some (JStr owner)) (Howner' : owner <> "")
  (Hrepo : json_get "repo" args = Some (JStr repo)) (Hrepo' : repo <> "")
  (Hpath : json_get "path" args = Some (JStr path)) (Hpath' : path <> "") :
  (json_get "branch" args = None ->
   targets (process http_request from_slice config input)
     = [("GET", "https://api.github.com/repos/" ++ owner ++ "/" ++ repo ++ "/contents/"
                  ++ path ++ "?ref=main")])
  /\ (forall branch, json_get "branch" args = Some (JStr branch) ->
      targets (process http_request from_slice config input)
        = [("GET", "https://api.github.com/repos/" ++ owner ++ "/" ++ repo ++ "/contents/"
                     ++ path ++ "?ref=" ++ branch)]).
Proof.
  enter_tool GetFile Htool Hargs.
  unfold get_file, str_arg_or; cbv zeta.
  rewrite Howner, Hrepo, Hpath; cbn [as_str].
  rewrite (is_empty_false owner Howner'), (is_empty_false repo Hrepo'),
    (is_empty_false path Hpath'); cbn [orb].
  rewrite bind_ret_r. split; [intros H | intros branch H]; rewrite H;
  rewrite github_get_run; reflexivity.
Qed.

Lemma get_file_target_witness :
  targets (process echo_transport null_parser JNull
             (tool_input "get_file" (JObj [("owner", JStr "o"); ("repo", JStr "r");
                                           ("path", JStr "README.md")])))
    = [("GET", "https://api.github.com/repos/o/r/contents/README.md?ref=main")].
Proof.
  apply (proj1 (get_file_target echo_transport null_parser JNull
           (tool_input "get_file" (JObj [("owner", JStr "o"); ("repo", JStr "r");
                                         ("path", JStr "README.md")]))
           (JObj [("owner", JStr "o"); ("repo", JStr "r"); ("path", JStr "README.md")])
           "o" "r" "README.md" eq_refl eq_refl eq_refl ltac:(discriminate)
           eq_refl ltac:(discriminate) eq_refl ltac:(discriminate))).
  reflexivity.
Defined.

Definition not_space (c : ascii) : bool := negb (Ascii.eqb c " "%char).

(** The query encoding of [search_code] keeps the length of the query,
    leaves no space in it, and leaves a query without spaces unchanged. *)
Theorem replace_space_props q :
  String.length (replace_space q) = String.length q
  /\ all_chars not_space (replace_space q) = true
  /\ (all_chars not_space q = true -> replace_space q = q).
Proof.
  induction q as [|c q (IHlen & IHns & IHid)]; cbn; [auto|].
  unfold not_space at 2 3.
  destruct (Ascii.eqb c " "%char) eqn:E; cbn.
  - rewrite IHlen, IHns. repeat split. discriminate.
  - unfold not_space at 1. rewrite E, IHlen, IHns. cbn. repeat split.
    intros H. now rewrite IHid.
Qed.

(** [search_code] with a non-empty query requests [/search/code?q=] followed
    by the query with its spaces replaced by [+], and [&per_page=20]. *)
Theorem search_code_target http_request from_slice config input args query
  (Htool : json_get "tool" input = Some (JStr "search_code"))
  (Hargs : json_get "args" input = Some args)
  (Hquery : json_get "query" args = Some (JStr query)) (Hquery' : query <> "") :
  targets (process http_request from_slice config input)
    = [("GET", "https://api.github.com/search/code?q=" ++ replace_space query
                 ++ "&per_page=20")].
Proof.
  enter_tool SearchCode Htool Hargs.
  unfold search_code, str_arg_or; cbv zeta.
  rewrite Hquery; cbn [as_str]. rewrite (is_empty_false query Hquery').
  rewrite bind_ret_r, github_get_run. reflexivity.
Qed.

Lemma search_code_target_witness :
  targets (process echo_transport null_parser JNull
             (tool_input "search_code" (JObj [("query", JStr "foo bar")])))
    = [("GET", "https://api.github.com/search/code?q=foo+bar&per_page=20")].
Proof.
  apply (search_code_target echo_transport null_parser JNull
           (tool_input "search_code" (JObj [("query", JStr "foo bar")]))
           (JObj [("query", JStr "foo bar")]) "foo bar"); (reflexivity || discriminate).
Defined.

(** [create_issue] with a non-empty owner, repo and title sends one POST to
    [/repos/owner/repo/issues] with a JSON content type and the serialized
    body [{"body": b, "title": title}], where [b] is the given [body] string,
    or the empty string when [body] is omitted. *)
Theorem create_issue_request http_request from_slice config input args owner repo title
  (Htool : json_get "tool" input = Some (JStr "create_issue"))
  (Hargs : json_get "args" input = Some args)
  (Howner : json_get "owner" args = Some (JStr owner)) (Howner' : owner <> "")
  (Hrepo : json_get "repo" args = Some (JStr repo)) (Hrepo' : repo <> "")
  (Htitle : json_get "title" args = Some (JStr title)) (Htitle' : title <> "") :
  let sent b :=
    [mkRequest "POST" ("https://api.github.com/repos/" ++ owner ++ "/" ++ repo ++ "/issues")
       (common_headers (config_token config) ++ [("Content-Type", "application/json")])
       (Some (to_string (JObj [("body", JStr b); ("title", JStr title)])))] in
  (json_get "body" args = None ->
   calls_of (process http_request from_slice config input) = sent "")
  /\ (forall b, json_get "body" args = Some (JStr b) ->
      calls_of (process http_request from_slice config input) = sent b).
Proof.
  cbv zeta.
  rewrite (process_route _ _ _ _ _ _ CreateIssue Htool Hargs eq_refl).
  unfold calls_of; cbn [run_tool].
  unfold create_issue, str_arg_or; cbv zeta.
  rewrite Howner, Hrepo, Htitle; cbn [as_str].
  rewrite (is_empty_false owner Howner'), (is_empty_false repo Hrepo'),
    (is_empty_false title Htitle'); cbn [orb].
  rewrite bind_ret_r. split; [intros H | intros b H]; rewrite H;
  rewrite github_post_run; reflexivity.
Qed.

Lemma create_issue_request_witness :
  calls_of (process echo_transport null_parser JNull
              (tool_input "create_issue" (JObj [("owner", JStr "o"); ("repo", JStr "r");
                                                ("title", JStr "t")])))
    = [mkRequest "POST" "https://api.github.com/repos/o/r/issues"
         (common_headers "" ++ [("Content-Type", "application/json")])
         (Some (to_string (JObj [("body", JStr ""); ("title", JStr "t")])))].
Proof.
  apply (proj1 (create_issue_request echo_transport null_parser JNull
           (tool_input "create_issue" (JObj [("owner", JStr "o"); ("repo", JStr "r");
                                             ("title", JStr "t")]))
           (JObj [("owner", JStr "o"); ("repo", JStr "r"); ("title", JStr "t")])
           "o" "r" "t" eq_refl eq_refl eq_refl ltac:(discriminate)
           eq_refl ltac:(discriminate) eq_refl ltac:(discriminate))).
  reflexivity.
Defined.

(** Every request [process] sends carries the bearer token read from the
    configuration (empty when the configuration has none), the GitHub JSON
    media type, the plugin's user agent and the API version 2022-11-28. *)
Theorem process_request_headers http_request from_slice config input req
  (Hin : In req (calls_of (process http_request from_slice config input))) :
  In ("Authorization", "Bearer " ++ config_token config) (req_headers req)
  /\ In ("Accept", "application/vnd.github+json") (req_headers req)
  /\ In ("User-Agent", "magi-github-plugin/0.1") (req_headers req)
  /\ In ("X-GitHub-Api-Version", "2022-11-28") (req_headers req).
Proof.
  unfold calls_of in Hin.
  destruct (process_shape http_request from_slice config input)
    as [[msg E]|[[path E]|[path [body E]]]]; rewrite E in Hin.
  - contradiction.
  - rewrite github_get_run in Hin. destruct Hin as [<-|[]]; cbn; tauto.
  - rewrite github_post_run in Hin. destruct Hin as [<-|[]]; cbn; tauto.
Qed.

Lemma process_request_headers_witness :
  In ("Authorization", "Bearer secret")
     (req_headers (get_request "secret" "/user/repos?per_page=30&sort=updated")).
Proof.
  apply (process_request_headers echo_transport null_parser
           (JObj [("github_token", JStr "secret")]) (tool_input "list_repos" JNull)
           (get_request "secret" "/user/repos?per_page=30&sort=updated")).
  left. reflexivity.
Defined.

(** Only [create_issue] writes: a request [process] sends is a POST with a
    JSON content type and a body when the tool is [create_issue], and a
    bodiless GET for every other tool. *)
Theorem process_post_only_create_issue http_request from_slice config input req
  (Hin : In req (calls_of (process http_request from_slice config input))) :
  (route (str_arg_or input "tool" "") = Some CreateIssue
   /\ req_method req = "POST"
   /\ In ("Content-Type", "application/json") (req_headers req)
   /\ req_body req <> None)
  \/ (route (str_arg_or input "tool" "") <> Some CreateIssue
      /\ req_method req = "GET" /\ req_body req = None).
Proof.
  unfold calls_of, process in Hin. cbv zeta in Hin.
  destruct (route (str_arg_or input "tool" "")) as [t|] eqn:Hr; [|contradiction].
  destruct t; cbn [run_tool] in Hin;
  unfold list_repos, get_repo, list_issues, create_issue, list_prs, get_pr,
    get_file, search_code in Hin; cbv zeta in Hin;
  repeat match type of Hin with
         | context [if ?c then _ else _] => destruct c
         end;
  rewrite ?bind_ret_r, ?github_get_run, ?github_post_run in Hin;
  cbn in Hin; try contradiction; destruct Hin as [<-|[]];
  first [ right; split; [congruence|split; reflexivity]
        | left; split; [reflexivity|split; [reflexivity|split; [cbn; tauto|discriminate]]] ].
Qed.

Lemma process_post_only_create_issue_witness :
  req_method (post_request "" "/repos/o/r/issues"
                (JObj [("body", JStr ""); ("title", JStr "t")])) = "POST".
Proof.
  destruct (process_post_only_create_issue echo_transport null_parser JNull
              (tool_input "create_issue" (JObj [("owner", JStr "o"); ("repo", JStr "r");
                                                ("title", JStr "t")]))
              (post_request "" "/repos/o/r/issues"
                 (JObj [("body", JStr ""); ("title", JStr "t")])))
    as [(_ & H & _)|(H & _)].
  - left. reflexivity.
  - exact H.
  - exfalso. apply H. reflexivity.
Defined.

(** A string tool name outside the router's eight cases is answered with
    [{error: "unknown tool: <name>"}] and no effect. *)
Theorem process_unknown_tool http_request from_slice config input name
  (Htool : json_get "tool" input = Some (JStr name))
  (Hunknown : route name = None) :
  process http_request from_slice config input
    = ([], Ok (error_obj ("unknown tool: " ++ name))).
Proof.
  unfold process, str_arg_or. rewrite Htool. cbn [as_str]. rewrite Hunknown.
  reflexivity.
Qed.

Lemma process_unknown_tool_witness :
  process refusing_transport null_parser JNull (tool_input "delete_repo" (JObj []))
    = ([], Ok (error_obj "unknown tool: delete_repo")).
Proof.
  apply (process_unknown_tool refusing_transport null_parser JNull
           (tool_input "delete_repo" (JObj [])) "delete_repo"); reflexivity.
Defined.

(** An input without [args] is a call with no argument at all:
    [list_repos] then requests the authenticated user's repositories, and
    every other tool answers its fixed error object with no effect. *)
Theorem process_without_args http_request from_slice config input name t
  (Htool : json_get "tool" input = Some (JStr name))
  (Hargs : json_get "args" input = None)
  (Hroute : route name = Some t) :
  (t = ListRepos ->
   targets (process http_request from_slice config input)
     = [("GET", "https://api.github.com/user/repos?per_page=30&sort=updated")])
  /\ (t <> ListRepos ->
      process http_request from_slice config input
        = ([], Ok (error_obj (required_message t)))).
Proof.
  assert (E : process http_request from_slice config input
               = run_tool http_request from_slice t (config_token config) JNull).
  { unfold process, str_arg_or at 1. rewrite Htool, Hargs. cbn [as_str].
    rewrite Hroute. reflexivity. }
  rewrite E. unfold targets, calls_of.
  destruct t; cbn [run_tool];
  unfold list_repos, get_repo, list_issues, create_issue, list_prs, get_pr,
    get_file, search_code; cbv zeta;
  cbn [str_arg_or json_get number_arg is_empty String.eqb orb];
  split; intros H; try congruence; try reflexivity.
  rewrite bind_ret_r, github_get_run. reflexivity.
Qed.

Lemma process_without_args_witness :
  process refusing_transport null_parser JNull (JObj [("tool", JStr "get_file")])
    = ([], Ok (error_obj "owner, repo, and path are required")).
Proof.
  apply (proj2 (process_without_args refusing_transport null_parser JNull
                  (JObj [("tool", JStr "get_file")]) "get_file" GetFile
                  eq_refl eq_refl eq_refl)).
  discriminate.
Defined.

(** [init] logs exactly one line, [GitHub plugin initialized], when it
    accepts the configuration, and nothing when it rejects it. *)
Theorem init_log input :
  fst (init input)
    = match json_get "github_token" (init_config input) with
      | Some (JStr _) => [LogInfo "GitHub plugin initialized"]
      | _ => []
      end.
Proof.
  unfold init, init_config. destruct (json_get "github_token" _) as [[]|]; reflexivity.
Qed.

(** [init] accepts exactly the configurations that meet the required fields
    and field types declared by [config_schema]. *)
Theorem init_agrees_with_schema input :
  result_of (init input)
    = if satisfies_required config_schema_json (init_config input)
      then Ok (JObj [("success", JBool true)])
      else Ok (error_obj "github_token is required").
Proof.
  unfold init, init_config, result_of; cbv zeta.
  set (cfg := match json_get "config" input with Some v => v | None => JNull end).
  assert (S : satisfies_required config_schema_json cfg
              = match json_get "github_token" cfg with Some (JStr _) => true | _ => false end).
  { clear. unfold satisfies_required. cbn.
    destruct (json_get "github_token" cfg) as [[]|]; reflexivity. }
  rewrite S. destruct (json_get "github_token" cfg) as [[]|]; reflexivity.
Qed.
